(** * Social-media mental-health analyzer: the metrics analysis engine

  A shallow embedding of the scoring functions, the risk-keyword detector
  and the result cache of [backend/src/utils/analysisEngine.js], together
  with the second scoring variant kept in the analysis routes file.

  Conventions of the embedding.
  - The score functions are written once over a number type with the
    operations they use, and read at two instances: exact rationals ([Q]),
    on which the general properties are proved, and IEEE 754 binary64
    ([float], the numbers JavaScript computes with), on which concrete
    inputs are evaluated.  The rest of the pipeline is read at [Q]: no path
    divides by zero (every division is by a constant or is guarded in the
    source), so the only idealisation there is the absence of rounding, of
    NaN and of overflow.
  - A JavaScript string is a [string] whose characters are the code units
    U+0000..U+00FF; [toLowerCase], [\s], [\b] and the [i] flag are exact on
    that range.
  - An object read through named properties with defaults is a [gmap] from
    property names to numbers; a [Map] keyed by strings is a
    [gmap string _]; the [Set] of processed texts is a [gset string].
  - The source path holds two modules one after the other.  The second,
    the metrics module, calls [calculateInterestScore] and
    [calculateStressScore] by name and neither defines nor imports them:
    the two names are unbound in its scope, and a call of an unbound name
    raises a ReferenceError.
  - [undefined]/missing is [None].  A thrown [Error] is the [inl] of a sum
    carrying the message.
  - The analysis result keeps the engagement, sentiment, mentalHealth and
    riskFactors parts; the per-platform table, the calendar trends and the
    narrative summary are presentation data outside this development, as
    are the [context], [examples] and [summary] fields of the risk report. *)

From Stdlib Require Import QArith Qminmax ZArith String Ascii List Lia Lqa.
From Stdlib Require Import Floats.
From stdpp Require Import gmap strings list.

Local Open Scope string_scope.
Set Warnings "-clear-no-such-hyp".

(** ** JavaScript primitives used by the engine *)

Module JS.

Definition code (c : ascii) : N := N_of_ascii c.

(** [String.prototype.toLowerCase], one code unit. *)
Definition toLowerChar (c : ascii) : ascii :=
  let n := code c in
  if ((65 <=? n) && (n <=? 90))%N then ascii_of_N (n + 32)
  else if ((192 <=? n) && (n <=? 222) && negb (n =? 215))%N
       then ascii_of_N (n + 32)
  else c.

Fixpoint toLowerCase (s : string) : string :=
  match s with
  | EmptyString => EmptyString
  | String c r => String (toLowerChar c) (toLowerCase r)
  end.

(** The class [\s]. *)
Definition isSpace (c : ascii) : bool :=
  let n := code c in
  ((9 <=? n) && (n <=? 13) || (n =? 32) || (n =? 160))%N.

(** The class [\w], which decides [\b]. *)
Definition isWordChar (c : ascii) : bool :=
  let n := code c in
  ((48 <=? n) && (n <=? 57) || (65 <=? n) && (n <=? 90)
   || (97 <=? n) && (n <=? 122) || (n =? 95))%N.

(** [s.split(/\s+/)]: [skipping] is true inside a run of separators. *)
Fixpoint split_ws (skipping : bool) (s : string) : list string :=
  match s with
  | EmptyString => [EmptyString]
  | String c r =>
      if isSpace c then
        if skipping then split_ws true r else EmptyString :: split_ws true r
      else
        match split_ws false r with
        | w :: ws => String c w :: ws
        | [] => [String c EmptyString]
        end
  end.

Definition split (s : string) : list string := split_ws false s.

(** [s.substring(0, n)]. *)
Fixpoint substring0 (n : nat) (s : string) : string :=
  match n, s with
  | S k, String c r => String c (substring0 k r)
  | _, _ => EmptyString
  end.

(** [Array.prototype.includes] on strings. *)
Definition includes (l : list string) (w : string) : bool :=
  existsb (String.eqb w) l.

(** [[...new Set(l)]]: first occurrences, in insertion order. *)
Fixpoint uniq (seen : list string) (l : list string) : list string :=
  match l with
  | [] => []
  | x :: r => if includes seen x then uniq seen r else x :: uniq (x :: seen) r
  end.

Definition num (n : nat) : Q := inject_Z (Z.of_nat n).

End JS.

(** ** Numbers *)

Module Num.

Class Number (A : Type) := {
  int : Z -> A;                  (* an integer literal *)
  add : A -> A -> A;
  sub : A -> A -> A;
  mul : A -> A -> A;
  div : A -> A -> A;
  Math_min : A -> A -> A;
  Math_max : A -> A -> A
}.

Declare Scope js_scope.
Delimit Scope js_scope with js.
Infix "+" := add : js_scope.
Infix "-" := sub : js_scope.
Infix "*" := mul : js_scope.
Infix "/" := div : js_scope.

(** The decimal literal [n/d], as the nearest value of the number type: a
    correctly rounded quotient of two small integers is the nearest
    binary64 value of the decimal. *)
Definition dec {A} `{Number A} (n d : Z) : A := div (int n) (int d).

Definition ofNat {A} `{Number A} (n : nat) : A := int (Z.of_nat n).

#[global] Instance exact : Number Q := {|
  int := inject_Z;
  add := Qplus; sub := Qminus; mul := Qmult; div := Qdiv;
  Math_min := Qmin; Math_max := Qmax
|}.

Definition float_of_Z (z : Z) : float :=
  match z with
  | Z0 => PrimFloat.zero
  | Zpos _ => PrimFloat.of_uint63 (Uint63.of_Z z)
  | Zneg p => PrimFloat.opp (PrimFloat.of_uint63 (Uint63.of_Z (Zpos p)))
  end.

Definition is_negative_zero (x : float) : bool :=
  PrimFloat.is_zero x && PrimFloat.get_sign x.

(** [Math.min] and [Math.max] of two binary64 values: NaN if either is,
    and [-0] below [+0]. *)
Definition float_min (a b : float) : float :=
  if PrimFloat.is_nan a || PrimFloat.is_nan b then PrimFloat.nan
  else if PrimFloat.ltb a b then a
  else if PrimFloat.ltb b a then b
  else if is_negative_zero a then a else b.

Definition float_max (a b : float) : float :=
  if PrimFloat.is_nan a || PrimFloat.is_nan b then PrimFloat.nan
  else if PrimFloat.ltb a b then b
  else if PrimFloat.ltb b a then a
  else if is_negative_zero a then b else a.

#[global] Instance binary64 : Number float := {|
  int := float_of_Z;
  add := PrimFloat.add; sub := PrimFloat.sub;
  mul := PrimFloat.mul; div := PrimFloat.div;
  Math_min := float_min; Math_max := float_max
|}.

Section Helpers.
Context {A : Type} `{Number A}.

(** [Math.min(Math.max(x, 0), 100)]. *)
Definition clamp100 (x : A) : A := Math_min (Math_max x (int 0)) (int 100).

(** A numeric property read with a destructuring default of [0]. *)
Definition prop (o : gmap string A) (k : string) : A := default (int 0) (o !! k).

End Helpers.

End Num.

(** ** Score functions of the engine (first module of analysisEngine.js) *)

Module Scoring.
Import JS Num.

Definition RISK_KEYWORDS : list string :=
  [ "suicide"; "kill myself"; "end my life"; "hopeless"; "don't want to live";
    "depressed"; "anxious"; "overwhelmed"; "can't go on"; "tired of life";
    "self-harm"; "self harm"; "cutting"; "suicidal"; "want to die";
    "lonely"; "alone"; "nobody cares"; "no one cares"; "worthless";
    "useless"; "failure"; "hate myself"; "disappointed in myself" ].

(** A post that passes [!post || typeof post !== 'string'] is a non-empty
    string; [None] stands for every other element. *)
Definition countable_post (p : option string) : option string :=
  match p with
  | Some EmptyString | None => None
  | Some s => Some s
  end.

Definition totalWords (posts : list (option string)) : nat :=
  fold_left (fun sum post =>
    match countable_post post with
    | None => sum
    | Some s => sum + length (split s)
    end)%nat posts 0%nat.

Definition riskWordCount (posts : list (option string)) : nat :=
  fold_left (fun sum post =>
    match countable_post post with
    | None => sum
    | Some s =>
        sum + length (List.filter (fun word => includes RISK_KEYWORDS word)
                                  (split (toLowerCase s)))
    end)%nat posts 0%nat.

Section Scores.
Context {A : Type} `{Number A}.
Local Open Scope js_scope.

Record weights := {
  w_likes : A; w_comments : A; w_shares : A; w_saves : A; w_watchTime : A }.

Definition SCORE_WEIGHTS : weights :=
  {| w_likes := dec 4 10; w_comments := dec 3 10; w_shares := dec 2 10;
     w_saves := dec 1 10; w_watchTime := dec 2 10 |}.

(** The table of the metrics module of the same file (upper-case keys). *)
Definition SCORE_WEIGHTS_METRICS : weights :=
  {| w_likes := dec 4 10; w_comments := dec 3 10; w_shares := dec 2 10;
     w_saves := dec 5 100; w_watchTime := dec 5 100 |}.

Definition STRESS_negativeSentiment : A := dec 6 10.
Definition STRESS_postFrequency : A := dec 2 10.
Definition STRESS_negativeWordDensity : A := dec 2 10.

Record normalized := {
  normalizedLikes : A; normalizedComments : A; normalizedShares : A;
  normalizedSaves : A; normalizedWatchTime : A }.

Definition normalize (o : gmap string A) : normalized :=
  {| normalizedLikes := Math_min (prop o "likes" / int 100) (int 1);
     normalizedComments := Math_min (prop o "comments" / int 10) (int 1);
     normalizedShares := Math_min (prop o "shares" / int 5) (int 1);
     normalizedSaves := Math_min (prop o "saves" / int 20) (int 1);
     normalizedWatchTime := Math_min (prop o "watchTime" / int 300) (int 1) |}.

Definition weighted (w : weights) (n : normalized) : A :=
  (normalizedLikes n * w_likes w +
   normalizedComments n * w_comments w +
   normalizedShares n * w_shares w +
   normalizedSaves n * w_saves w +
   normalizedWatchTime n * w_watchTime w) * int 100.

(** The body of [calculateInterestScore], with the weight table as a
    parameter so that it can also be read with the other table of the file,
    which no function of the source uses. *)
Definition interestWith (w : weights) (o : gmap string A) : A :=
  clamp100 (weighted w (normalize o)).

Definition calculateInterestScore (o : gmap string A) : A :=
  interestWith SCORE_WEIGHTS o.

Definition riskKeywordDensity (posts : list (option string)) : A :=
  if (0 <? length posts)%nat then
    if (0 <? totalWords posts)%nat
    then Math_min (ofNat (riskWordCount posts) / ofNat (totalWords posts)) (int 1)
    else int 0
  else int 0.

Definition stressRaw (o : gmap string A) (posts : list (option string)) : A :=
  let normalizedSentiment := (prop o "sentiment" + int 1) / int 2 in
  let negativeContentScore := prop o "negativePercentage" / int 100 in
  let normalizedPostFrequency := Math_min (prop o "postFrequency" / int 10) (int 1) in
  ((int 1 - normalizedSentiment) * STRESS_negativeSentiment +
   negativeContentScore * STRESS_negativeWordDensity +
   normalizedPostFrequency * STRESS_postFrequency +
   riskKeywordDensity posts * dec 3 10) * int 100.

(** [posts] is the destructured [posts = []] argument. *)
Definition calculateStressScore
    (o : gmap string A) (posts : list (option string)) : A :=
  clamp100 (stressRaw o posts).

End Scores.

End Scoring.

(** ** Score helpers of the analysis routes file *)

Module AnalysisRoutes.
Import JS Num.

Section Scores.
Context {A : Type} `{Number A}.
Local Open Scope js_scope.

Definition normalize (o : gmap string A) : Scoring.normalized :=
  {| Scoring.normalizedLikes := Math_min (prop o "likes" / int 100) (int 1);
     Scoring.normalizedComments := Math_min (prop o "comments" / int 10) (int 1);
     Scoring.normalizedShares := Math_min (prop o "shares" / int 20) (int 1);
     Scoring.normalizedSaves := Math_min (prop o "saves" / int 10) (int 1);
     Scoring.normalizedWatchTime := Math_min (prop o "watchTime" / int 60) (int 1) |}.

Definition calculateInterestScore (o : gmap string A) : A :=
  let n := normalize o in
  clamp100
    ((Scoring.normalizedLikes n * dec 4 10 +
      Scoring.normalizedComments n * dec 3 10 +
      Scoring.normalizedShares n * dec 2 10 +
      Scoring.normalizedSaves n * dec 5 100 +
      Scoring.normalizedWatchTime n * dec 5 100) * int 100).

Definition calculateStressScore (o : gmap string A) : A :=
  let normalizedSentiment :=
    (int 1 - (prop o "sentiment" + int 1) / int 2) * int 100 in
  let normalizedNegative := prop o "negativePercentage" in
  let normalizedFrequency :=
    Math_min (prop o "postFrequency" / int 5) (int 1) * int 100 in
  clamp100
    (normalizedSentiment * dec 3 10 + normalizedNegative * dec 5 10 +
     normalizedFrequency * dec 2 10).

End Scores.

End AnalysisRoutes.

(** ** The metrics module: validation, scoring pipeline, risk detector, cache *)

Module Engine.
Import JS.

(** *** Records of the batch *)

Record Metrics := {
  likes : option Q; comments : option Q; shares : option Q;
  saves : option Q; watchTimeSeconds : option Q;
  sentiment_score : option Q   (* [sentiment?.score] *)
}.

(** [_id] is the identifier as the template literal prints it. *)
Record Post := {
  _id : option string;
  timestamp : option Z;        (* a Date, in epoch milliseconds *)
  text : option string;        (* [None]: missing or not a string *)
  metrics : Metrics
}.

Inductive element :=
| NotAnObject                  (* [!metric || typeof metric !== 'object'] *)
| MissingMetrics               (* no [metrics] object *)
| Record_ (p : Post).

Inductive input :=
| NotAnArray
| Array (l : list element).

Record Options := {
  timeRange : option string;
  startDate : option Z;
  endDate : option Z
}.

Inductive error :=
| MetricsMustBeArray
| NoMetricsProvided
| InvalidMetric (index : nat)
| InvalidMetricsData (index : nat)
| NotDefined (name : string)     (* ReferenceError: [name] is not defined *)
| AnalysisFailed (cause : error).

(** *** validateMetrics *)

Fixpoint validateEach (index : nat) (l : list element) : error + list Post :=
  match l with
  | [] => inr []
  | NotAnObject :: _ => inl (InvalidMetric index)
  | MissingMetrics :: _ => inl (InvalidMetricsData index)
  | Record_ p :: r =>
      match validateEach (S index) r with
      | inl e => inl e
      | inr ps => inr (p :: ps)
      end
  end.

Definition validateMetrics (metrics : input) : error + list Post :=
  match metrics with
  | NotAnArray => inl MetricsMustBeArray
  | Array [] => inl NoMetricsProvided
  | Array l => validateEach 0 l
  end.

(** *** The keyword patterns: [\b(k1|k2|...)\b] with flags [gi] *)

(** Canonicalisation of a code unit under the [i] flag. *)
Definition canonicalize (c : ascii) : ascii :=
  let n := code c in
  if ((97 <=? n) && (n <=? 122))%N then ascii_of_N (n - 32)
  else if ((224 <=? n) && (n <=? 254) && negb (n =? 247))%N
       then ascii_of_N (n - 32)
  else c.

Definition eq_ci (a b : ascii) : bool :=
  Ascii.eqb (canonicalize a) (canonicalize b).

(** One alternative at the head of [s]: the matched text, its last
    character and what follows it. *)
Fixpoint matchKeyword (kw s : string) (last : option ascii)
  : option (string * option ascii * string) :=
  match kw with
  | EmptyString => Some (EmptyString, last, s)
  | String a k =>
      match s with
      | EmptyString => None
      | String b r =>
          if eq_ci a b then
            match matchKeyword k r (Some b) with
            | Some (m, l, rest) => Some (String b m, l, rest)
            | None => None
            end
          else None
      end
  end.

Definition isWordBefore (prev : option ascii) : bool :=
  match prev with Some c => isWordChar c | None => false end.

Definition isWordAt (s : string) : bool :=
  match s with String c _ => isWordChar c | EmptyString => false end.

(** The assertion [\b] between [prev] and the head of [s]. *)
Definition wordBoundary (prev : option ascii) (s : string) : bool :=
  xorb (isWordBefore prev) (isWordAt s).

(** The alternation followed by the closing [\b], alternatives in order
    with backtracking into the next one. *)
Fixpoint matchAlternatives (kws : list string) (prev : option ascii)
    (s : string) : option string :=
  match kws with
  | [] => None
  | kw :: more =>
      match matchKeyword kw s prev with
      | Some (m, l, rest) =>
          if wordBoundary l rest then Some m
          else matchAlternatives more prev s
      | None => matchAlternatives more prev s
      end
  end.

Definition matchAt (kws : list string) (prev : option ascii) (s : string)
  : option string :=
  if wordBoundary prev s then matchAlternatives kws prev s else None.

(** [text.match(pattern)] with the [g] flag: every match, left to right,
    the search resuming after each one; [skip] counts the characters of the
    current match still to pass.  The empty list stands for [null]. The
    keywords are not empty, so no match is empty. *)
Fixpoint matchAll (kws : list string) (skip : nat) (prev : option ascii)
    (s : string) : list string :=
  match s with
  | EmptyString => []
  | String c r =>
      match skip with
      | S k => matchAll kws k (Some c) r
      | O =>
          match matchAt kws prev s with
          | Some m => m :: matchAll kws (String.length m - 1) (Some c) r
          | None => matchAll kws 0 (Some c) r
          end
      end
  end.

Definition match_ (kws : list string) (text : string) : list string :=
  matchAll kws 0 None text.

Definition RISK_high : list string :=
  [ "suicide"; "kill myself"; "end my life"; "suicidal";
    "self-harm"; "self harm"; "cutting"; "want to die" ].

Definition RISK_medium : list string :=
  [ "hopeless"; "can't go on"; "tired of life";
    "no reason to live"; "give up" ].

Definition RISK_low : list string :=
  [ "depressed"; "anxious"; "overwhelmed"; "lonely";
    "alone"; "nobody cares"; "no one cares"; "worthless";
    "useless"; "failure"; "hate myself"; "disappointed in myself" ].

(** *** detectRiskFactors *)

Inductive severity := high | medium | low.

Record Matches := {
  m_high : list string; m_medium : list string; m_low : list string }.

(** The body of the loop from [metric.text.toLowerCase()] to the last
    tier check: the severity ([None] is ['none']) and the matches kept. *)
Definition scanText (t : string) : option severity * Matches :=
  let text := toLowerCase t in
  let highMatches := match_ RISK_high text in
  match highMatches with
  | _ :: _ =>
      (Some high, {| m_high := uniq [] highMatches; m_medium := []; m_low := [] |})
  | [] =>
      let mediumMatches := match_ RISK_medium text in
      match mediumMatches with
      | _ :: _ =>
          (Some medium,
           {| m_high := []; m_medium := uniq [] mediumMatches; m_low := [] |})
      | [] =>
          let lowMatches := match_ RISK_low text in
          match lowMatches with
          | _ :: _ =>
              (Some low,
               {| m_high := []; m_medium := []; m_low := uniq [] lowMatches |})
          | [] => (None, {| m_high := []; m_medium := []; m_low := [] |})
          end
      end
  end.

Module Finding.
Record t := {
  id : option string;
  text : string;             (* the excerpt *)
  timestamp : option Z;
  matches : list string;
  severity : severity
}.
End Finding.

Definition excerpt (t : string) : string :=
  if (200 <? String.length t)%nat then substring0 200 t ++ "..." else t.

Record LoopState := {
  riskPosts : list Finding.t;
  processedTexts : gset string
}.

(** One iteration of [for (const metric of metrics)].  A text that is not
    a string is [None]: it is skipped by the guard when falsy and by the
    [catch] otherwise. *)
Definition visit (st : LoopState) (metric : Post) : LoopState :=
  match text metric with
  | None | Some EmptyString => st
  | Some t =>
      if decide (t ∈ processedTexts st) then st
      else
        match scanText t with
        | (None, _) => st
        | (Some sev, ms) =>
            let allMatches := (m_high ms ++ m_medium ms ++ m_low ms)%list in
            {| riskPosts :=
                 (riskPosts st ++
                  [ {| Finding.id := _id metric;
                       Finding.text := excerpt t;
                       Finding.timestamp := timestamp metric;
                       Finding.matches := allMatches;
                       Finding.severity := sev |} ])%list;
               processedTexts := {[ t ]} ∪ processedTexts st |}
        end
  end.

Definition scanBatch (metrics : list Post) : LoopState :=
  fold_left visit metrics {| riskPosts := []; processedTexts := ∅ |}.

Definition is_severity (s : severity) (p : Finding.t) : bool :=
  match s, Finding.severity p with
  | high, high | medium, medium | low, low => true
  | _, _ => false
  end.

Inductive level :=
| level_none | level_low | level_low_medium
| level_medium | level_medium_high | level_high.

Record RiskReport := {
  total : nat;
  highRisk : nat;
  mediumRisk : nat;
  lowRisk : nat;
  riskLevel : level;
  riskScore : option nat       (* absent from the early return *)
}.

(** The part of [detectRiskFactors] after the loop: grouping, overall
    level and score. *)
Definition summarize (riskPosts : list Finding.t) : RiskReport :=
  let highRisk := List.filter (is_severity high) riskPosts in
  let mediumRisk := List.filter (is_severity medium) riskPosts in
  let lowRisk := List.filter (is_severity low) riskPosts in
  let riskLevel :=
    if (0 <? length highRisk)%nat then level_high
    else if (3 <=? length mediumRisk)%nat then level_medium_high
    else if (0 <? length mediumRisk)%nat then level_medium
    else if (5 <=? length lowRisk)%nat then level_low_medium
    else if (0 <? length lowRisk)%nat then level_low
    else level_none in
  let riskScores :=
    [ length highRisk * 10; length mediumRisk * 3; length lowRisk * 1 ]%nat in
  let totalRiskScore :=
    Nat.min (fold_left (fun sum score => sum + score)%nat riskScores 0%nat) 100 in
  {| total := length riskPosts;
     highRisk := length highRisk;
     mediumRisk := length mediumRisk;
     lowRisk := length lowRisk;
     riskLevel := riskLevel;
     riskScore := Some totalRiskScore |}.

Definition detectRiskFactors (metrics : list Post) : RiskReport :=
  match metrics with
  | [] =>
      {| total := 0; highRisk := 0; mediumRisk := 0; lowRisk := 0;
         riskLevel := level_none; riskScore := None |}
  | _ :: _ => summarize (riskPosts (scanBatch metrics))
  end.

(** *** processMetrics *)

Local Open Scope Q_scope.

Definition sumMetric (metrics : list Post) (field : Metrics -> option Q) : Q :=
  fold_left (fun sum m => sum + default 0 (field (Engine.metrics m))) metrics 0.

(** The object literal returned by [calculateAverages]. *)
Definition calculateAverages (totalPosts : nat)
    (totalLikes totalComments totalShares totalSaves totalWatchTime : Q)
  : gmap string Q :=
  let avg (total : Q) := if (0 <? totalPosts)%nat then total / num totalPosts else 0 in
  <["avgLikes" := avg totalLikes]>
    (<["avgComments" := avg totalComments]>
      (<["avgShares" := avg totalShares]>
        (<["avgSaves" := avg totalSaves]>
          (<["avgWatchTime" := avg totalWatchTime]> ∅)))).

Record SentimentMetrics := {
  avgSentiment : Q; positive : Q; negative : Q; neutral : Q }.

Definition gt (a b : Q) : bool := negb (Qle_bool a b).
Definition lt (a b : Q) : bool := negb (Qle_bool b a).

Definition sum (l : list Q) : Q := fold_left Qplus l 0.

(** Every rational passes [score !== null && !isNaN(score)]. *)
Definition calculateSentimentMetrics (metrics : list Post) : SentimentMetrics :=
  let sentimentScores :=
    map (fun m => default 0 (sentiment_score (Engine.metrics m))) metrics in
  match sentimentScores with
  | [] => {| avgSentiment := 0; positive := 0; negative := 0; neutral := 100 |}
  | _ :: _ =>
      let n := num (length sentimentScores) in
      let positive :=
        num (length (List.filter (fun s => gt s 0.1) sentimentScores)) / n * 100 in
      let negative :=
        num (length (List.filter (fun s => lt s (- 0.1)) sentimentScores)) / n * 100 in
      {| avgSentiment := sum sentimentScores / n;
         positive := positive; negative := negative;
         neutral := 100 - positive - negative |}
  end.

(** [parseInt] on a string of code units. *)
Definition digitValue (radix : N) (c : ascii) : option N :=
  let n := code c in
  let v := if ((48 <=? n) && (n <=? 57))%N then Some (n - 48)%N
           else if ((97 <=? n) && (n <=? 122))%N then Some (n - 87)%N
           else if ((65 <=? n) && (n <=? 90))%N then Some (n - 55)%N
           else None in
  match v with
  | Some d => if (d <? radix)%N then Some d else None
  | None => None
  end.

Fixpoint parseDigits (radix : N) (acc : option N) (s : string) : option N :=
  match s with
  | EmptyString => acc
  | String c r =>
      match digitValue radix c with
      | Some d => parseDigits radix (Some (radix * default 0%N acc + d)%N) r
      | None => acc
      end
  end.

Fixpoint trimStart (s : string) : string :=
  match s with
  | EmptyString => EmptyString
  | String c r => if isSpace c then trimStart r else s
  end.

Definition parseInt (s : string) : option Z :=
  let s1 := trimStart s in
  let '(sign, s2) :=
    match s1 with
    | String "-" r => ((-1)%Z, r)
    | String "+" r => (1%Z, r)
    | _ => (1%Z, s1)
    end in
  let '(radix, s3) :=
    match s2 with
    | String "0" (String "x" r) | String "0" (String "X" r) => (16%N, r)
    | _ => (10%N, s2)
    end in
  match parseDigits radix None s3 with
  | Some n => Some (sign * Z.of_N n)%Z
  | None => None
  end.

Definition msPerDay : Q := 1000 * 60 * 60 * 24.

Definition calculatePostFrequency (metrics : list Post) (timeRange : string)
    (startDate endDate : option Z) : Q :=
  let byRange :=
    let n := match parseInt timeRange with
             | Some 0%Z | None => 30%Z
             | Some k => k
             end in
    num (length metrics) / inject_Z n in
  if String.eqb timeRange "custom" then
    match startDate, endDate with
    | Some s, Some e =>
        let days := inject_Z (e - s) / msPerDay in
        num (length metrics) / Qmax 1 days
    | _, _ => byRange
    end
  else byRange.

Definition calculateEngagementRate (likes comments shares : Q) (totalPosts : nat) : Q :=
  if (0 <? totalPosts)%nat then (likes + comments + shares) / num totalPosts else 0.

Definition calculateEnergyLevel (interestScore : Q) : Q :=
  Qmin 100 (Qmax 0 (50 + (interestScore - 50) * 0.5)).

Definition calculateSocialSupport (comments : Q) : Q :=
  Qmin 100 (Qmax 0 (50 + comments * 0.1)).

Record Engagement := {
  totalPosts : nat;
  totalLikes : Q; totalComments : Q; totalShares : Q;
  totalSaves : Q; totalWatchTime : Q;
  averages : gmap string Q;    (* the spread [...averages] *)
  engagementRate : Q
}.

Record MentalHealth := {
  interestScore : Q; stressScore : Q; moodScore : Q;
  energyLevel : Q; socialSupport : Q }.

Record AnalysisData := {
  engagement : Engagement;
  sentiment : SentimentMetrics;
  comparative : Q;
  mentalHealth : MentalHealth;
  riskFactors : RiskReport
}.

(** The two score functions as the scope of this module binds them: it
    neither defines nor imports them, so both names are unbound. *)
Definition calculateInterestScore : option (gmap string Q -> Q) := None.
Definition calculateStressScore : option (gmap string Q -> Q) := None.

(** A call [name(argument)]: a ReferenceError when the name is unbound. *)
Definition call {X Y : Type} (name : string) (binding : option (X -> Y))
    (argument : X) : error + Y :=
  match binding with
  | Some f => inr (f argument)
  | None => inl (NotDefined name)
  end.

Definition processMetrics (metrics : list Post) (options : Options)
  : error + AnalysisData :=
  let timeRange := default "30d" (timeRange options) in
  let startDate := startDate options in
  let endDate := endDate options in
  let totalLikes := sumMetric metrics likes in
  let totalComments := sumMetric metrics comments in
  let totalShares := sumMetric metrics shares in
  let totalSaves := sumMetric metrics saves in
  let totalWatchTime := sumMetric metrics watchTimeSeconds in
  let totalPosts := length metrics in
  let averages :=
    calculateAverages totalPosts
      totalLikes totalComments totalShares totalSaves totalWatchTime in
  let sentimentMetrics := calculateSentimentMetrics metrics in
  match call "calculateInterestScore" calculateInterestScore averages with
  | inl e => inl e
  | inr interestScore =>
      match
        call "calculateStressScore" calculateStressScore
          (<["sentiment" := avgSentiment sentimentMetrics]>
            (<["negativePercentage" := negative sentimentMetrics]>
              (<["postFrequency" :=
                   calculatePostFrequency metrics timeRange startDate endDate]> ∅)))
      with
      | inl e => inl e
      | inr stressScore =>
          let riskFactors := detectRiskFactors metrics in
          inr
            {| engagement :=
                 {| totalPosts := totalPosts;
                    totalLikes := totalLikes; totalComments := totalComments;
                    totalShares := totalShares; totalSaves := totalSaves;
                    totalWatchTime := totalWatchTime;
                    averages := averages;
                    engagementRate :=
                      calculateEngagementRate
                        totalLikes totalComments totalShares totalPosts |};
               sentiment := sentimentMetrics;
               comparative := avgSentiment sentimentMetrics * 5;
               mentalHealth :=
                 {| interestScore := interestScore;
                    stressScore := stressScore;
                    moodScore := 50 + avgSentiment sentimentMetrics * 25;
                    energyLevel := calculateEnergyLevel interestScore;
                    socialSupport := calculateSocialSupport totalComments |};
               riskFactors := riskFactors |}
      end
  end.

Local Close Scope Q_scope.

(** *** The result cache and analyzeMetrics *)

Definition CACHE_TTL : Z := 5 * 60 * 1000.

Record CacheEntry := {
  data : AnalysisData;
  stored : Z                   (* the entry's [timestamp]: [Date.now()] *)
}.

(** [cleanupCache], run at time [now]. *)
Definition cleanupCache (now : Z) (analysisCache : gmap string CacheEntry)
  : gmap string CacheEntry :=
  filter (fun kv => ¬ (now - stored kv.2 > CACHE_TTL)%Z) analysisCache.

Definition quote : string := String "034"%char EmptyString.

Definition hexDigit (n : N) : ascii :=
  if (n <? 10)%N then ascii_of_N (48 + n) else ascii_of_N (87 + n).

(** [JSON.stringify] of a string: one code unit, then the whole string. *)
Definition quoteJSONChar (c : ascii) : string :=
  let n := code c in
  if (n =? 8)%N then "\b"
  else if (n =? 9)%N then "\t"
  else if (n =? 10)%N then "\n"
  else if (n =? 12)%N then "\f"
  else if (n =? 13)%N then "\r"
  else if (n =? 34)%N then "\" ++ quote
  else if (n =? 92)%N then "\\"
  else if (n <? 32)%N then
    "\u00" ++ String (hexDigit (n / 16)) (String (hexDigit (n mod 16)) EmptyString)
  else String c EmptyString.

Fixpoint quoteJSONBody (s : string) : string :=
  match s with
  | EmptyString => EmptyString
  | String c r => quoteJSONChar c ++ quoteJSONBody r
  end.

Definition quoteJSONString (s : string) : string :=
  quote ++ quoteJSONBody s ++ quote.

(** [Array.prototype.join]. *)
Fixpoint join (sep : string) (l : list string) : string :=
  match l with
  | [] => EmptyString
  | [x] => x
  | x :: r => x ++ sep ++ join sep r
  end.

(** A property of the serialized object; an [undefined] value drops it. *)
Definition jsonProperty (name : string) (value : option string) : list string :=
  match value with
  | Some v => [quoteJSONString name ++ ":" ++ quoteJSONString v]
  | None => []
  end.

Record Clock := {
  startTime : Q;               (* [performance.now()] on entry *)
  endTime : Q;                 (* [performance.now()] on return *)
  dateNow : Z                  (* [Date.now()] when the entry is stored *)
}.

Record Response := {
  result : AnalysisData;       (* the spread [...result] *)
  _cached : bool;
  _processingTime : Q
}.

Section Cache.
(** How the host prints a Date: [String(date)] depends on the time zone,
    [date.toISOString()] does not. *)
Variable dateToString : Z -> string.
Variable toISOString : Z -> string.

Definition generateCacheKey (metrics : list Post) (options : Options) : string :=
  let metricsKey :=
    join "|"
      (map (fun m =>
              default EmptyString (_id m) ++ ":" ++
              match timestamp m with
              | Some d => dateToString d
              | None => EmptyString
              end) metrics) in
  let optionsKey :=
    "{" ++
    join ","
      (jsonProperty "timeRange" (timeRange options) ++
       jsonProperty "startDate" (toISOString <$> startDate options) ++
       jsonProperty "endDate" (toISOString <$> endDate options))%list
    ++ "}" in
  metricsKey ++ "|" ++ optionsKey.

Definition analyzeMetrics (clock : Clock)
    (analysisCache : gmap string CacheEntry)
    (metrics : input) (options : Options)
  : (error + Response) * gmap string CacheEntry :=
  match validateMetrics metrics with
  | inl e => (inl (AnalysisFailed e), analysisCache)
  | inr records =>
      let cacheKey := generateCacheKey records options in
      match analysisCache !! cacheKey with
      | Some cachedResult =>
          (inr {| result := data cachedResult;
                  _cached := true;
                  _processingTime := (endTime clock - startTime clock)%Q |},
           analysisCache)
      | None =>
          match processMetrics records options with
          | inl e => (inl (AnalysisFailed e), analysisCache)
          | inr result =>
              (inr {| result := result;
                      _cached := false;
                      _processingTime := (endTime clock - startTime clock)%Q |},
               <[cacheKey := {| data := result; stored := dateNow clock |}]>
                 analysisCache)
          end
      end
  end.

End Cache.

End Engine.

(** ** The detector's outcome, stated on texts *)

Module RiskSpec.
Import JS Engine.

#[global] Instance severity_eq_dec : EqDecision severity.
Proof. solve_decision. Defined.

Definition keywords (s : severity) : list string :=
  match s with
  | high => RISK_high
  | medium => RISK_medium
  | low => RISK_low
  end.

(** The tier's pattern has at least one match in the text. *)
Definition hasMatch (s : severity) (t : string) : bool :=
  match match_ (keywords s) (toLowerCase t) with
  | [] => false
  | _ :: _ => true
  end.

(** The first tier, in the order high, medium, low, with a match. *)
Definition firstTier (t : string) : option severity :=
  List.find (fun s => hasMatch s t) [high; medium; low].

Definition tierOfPost (m : Post) : option (string * severity) :=
  match text m with
  | Some t =>
      match firstTier t with
      | Some s => Some (t, s)
      | None => None
      end
  | None => None
  end.

Definition textAt (s : severity) (m : Post) : option string :=
  match tierOfPost m with
  | Some (t, s') => if decide (s' = s) then Some t else None
  | None => None
  end.

(** The distinct texts of the batch whose first matching tier is [s]. *)
Definition textsAt (s : severity) (ms : list Post) : gset string :=
  list_to_set (omap (textAt s) ms).

Definition riskyTexts (ms : list Post) : gset string :=
  textsAt high ms ∪ textsAt medium ms ∪ textsAt low ms.

(** The finding pushed for a post whose text [t] falls in tier [s]. *)
Definition findingOf (m : Post) (t : string) (s : severity) : Finding.t :=
  {| Finding.id := _id m;
     Finding.text := excerpt t;
     Finding.timestamp := timestamp m;
     Finding.matches := uniq [] (match_ (keywords s) (toLowerCase t));
     Finding.severity := s |}.

(** The decision table of the overall risk level, as rows of a condition
    and a level, read top-down; the first row that holds decides. *)
Definition decisionTable (highCount mediumCount lowCount : nat)
  : list (bool * level) :=
  [ ((0 <? highCount)%nat, level_high);
    ((3 <=? mediumCount)%nat, level_medium_high);
    ((0 <? mediumCount)%nat, level_medium);
    ((5 <=? lowCount)%nat, level_low_medium);
    ((0 <? lowCount)%nat, level_low) ].

Definition firstMatch (rows : list (bool * level)) : level :=
  match List.find fst rows with
  | Some (_, l) => l
  | None => level_none
  end.

Definition levelTable (highCount mediumCount lowCount : nat) : level :=
  firstMatch (decisionTable highCount mediumCount lowCount).

(** The formula of the aggregate risk score. *)
Definition scoreFormula (highCount mediumCount lowCount : nat) : nat :=
  Nat.min 100 (10 * highCount + 3 * mediumCount + 1 * lowCount).

End RiskSpec.

(** ** What happens to the cache between two calls *)

Module CacheSpec.
Import Engine.

(** The interval timer ran [cleanupCache] at each of the given times. *)
Definition sweep (times : list Z) (analysisCache : gmap string CacheEntry)
  : gmap string CacheEntry :=
  fold_left (fun cache now => cleanupCache now cache) times analysisCache.

(** The entry under [key], if any, is not older than the TTL at [now]. *)
Definition unexpired (key : string) (analysisCache : gmap string CacheEntry)
    (now : Z) : bool :=
  match analysisCache !! key with
  | Some entry => (now - stored entry <=? CACHE_TTL)%Z
  | None => true
  end.

(** The answer served from the cache: the stored content, flagged. *)
Definition hit (clock : Clock) (d : AnalysisData) : Response :=
  {| result := d; _cached := true;
     _processingTime := (endTime clock - startTime clock)%Q |}.

(** What [generateCacheKey] reads of a record. *)
Definition identity (m : Post) : option string * option Z :=
  (_id m, timestamp m).

(** The states of the cache in the life of the process: empty at start,
    then changed by calls of [analyzeMetrics] and by sweeps only. *)
Inductive reachable (dateToString toISOString : Z -> string)
  : gmap string CacheEntry -> Prop :=
| reachable_start : reachable dateToString toISOString ∅
| reachable_call clock cache metrics options outcome cache' :
    reachable dateToString toISOString cache ->
    analyzeMetrics dateToString toISOString clock cache metrics options
    = (outcome, cache') ->
    reachable dateToString toISOString cache'
| reachable_sweep now cache :
    reachable dateToString toISOString cache ->
    reachable dateToString toISOString (cleanupCache now cache).

End CacheSpec.

(** ** Sample inputs *)

Module Samples.
Import JS Engine.

(** likes=200, comments=20, shares=10, saves=20, watchTime=300. *)
Definition saturating {A} `{Num.Number A} : gmap string A :=
  <["likes" := Num.int 200]>
    (<["comments" := Num.int 20]>
      (<["shares" := Num.int 10]>
        (<["saves" := Num.int 20]>
          (<["watchTime" := Num.int 300]> ∅)))).

Definition post (i : string) (when : Z) (t : string) (l : Q) : Post :=
  {| _id := Some i; timestamp := Some when; text := Some t;
     metrics := {| likes := Some l; comments := Some 2%Q; shares := None;
                   saves := None; watchTimeSeconds := None;
                   sentiment_score := Some (1 # 2) |} |}.

Fixpoint repeat_char (c : ascii) (n : nat) : string :=
  match n with
  | O => EmptyString
  | S k => String c (repeat_char c k)
  end.

(** A 209-character text that names a medium-tier keyword. *)
Definition longText : string := "hopeless " ++ repeat_char "a" 200.

Definition mixedPost : Post := post "p1" 1 "I feel Suicidal and so lonely" 3.
Definition longPost : Post := post "p2" 2 longText 1.
Definition happyPost : Post := post "p3" 3 "I am so happy today" 40.
Definition hopelessPost : Post :=
  post "p4" 4 "I feel hopeless and want to give up" 0.
Definition happyAgain : Post := post "p5" 5 "I am so happy today" 7.
Definition hopelessAgain : Post :=
  post "p6" 6 "I feel hopeless and want to give up" 9.

(** Arguments with one property that is NaN. *)
Definition nanLikes : gmap string float := <["likes" := PrimFloat.nan]> ∅.
Definition nanSentiment : gmap string float := <["sentiment" := PrimFloat.nan]> ∅.

Definition week : Options :=
  {| timeRange := Some "7d"; startDate := None; endDate := None |}.

(** A stand-in for the host's Date printers: the epoch value in binary. *)
Fixpoint bits (p : BinNums.positive) : string :=
  match p with
  | xH => "1"
  | xO q => bits q ++ "0"
  | xI q => bits q ++ "1"
  end.

Definition printDate (z : Z) : string :=
  match z with
  | Z0 => "0"
  | Zpos p => bits p
  | Zneg p => "-" ++ bits p
  end.

(** The same identifier and timestamp as [happyPost], other content. *)
Definition impostor : Post :=
  post "p3" 3 "I feel hopeless and want to give up" 0.

Definition clock0 : Clock := {| startTime := 0; endTime := 1; dateNow := 1000 |}.
Definition clock1 : Clock := {| startTime := 5; endTime := 5; dateNow := 2000 |}.

End Samples.

(** ** Properties of the score functions *)

Section ScoreBounds.
Import JS Num.
Local Open Scope Q_scope.

Lemma clamp100_bounds (x : Q) : 0 <= clamp100 x <= 100.
Proof.
  unfold clamp100. cbn [Math_min Math_max int exact]. split.
  - apply Q.min_glb; [apply Q.le_max_r | compute; discriminate].
  - apply Q.le_min_r.
Qed.

Lemma interestWith_bounds (w : Scoring.weights) (o : gmap string Q) :
  0 <= Scoring.interestWith w o <= 100.
Proof. apply clamp100_bounds. Qed.

Lemma stress_bounds (o : gmap string Q) (posts : list (option string)) :
  0 <= Scoring.calculateStressScore o posts <= 100.
Proof. apply clamp100_bounds. Qed.

Lemma routes_scores_bounds (o : gmap string Q) :
  0 <= AnalysisRoutes.calculateInterestScore o <= 100 /\
  0 <= AnalysisRoutes.calculateStressScore o <= 100.
Proof. split; apply clamp100_bounds. Qed.

(** C1. The clamp keeps both scores in [0,100] on rational arguments, but
    not on every argument: [Math.max] and [Math.min] pass NaN through, so
    with a NaN property both functions return NaN, which is neither at
    least 0 nor at most 100. *)
Theorem scores_nan_on_nan_argument :
  (forall o : gmap string Q,
      0 <= Scoring.calculateInterestScore o <= 100) /\
  (forall (o : gmap string Q) (posts : list (option string)),
      0 <= Scoring.calculateStressScore o posts <= 100) /\
  (let score := Scoring.calculateInterestScore Samples.nanLikes in
   PrimFloat.is_nan score = true /\
   PrimFloat.leb 0 score = false /\ PrimFloat.leb score 100 = false) /\
  (let score := Scoring.calculateStressScore Samples.nanSentiment [] in
   PrimFloat.is_nan score = true /\
   PrimFloat.leb 0 score = false /\ PrimFloat.leb score 100 = false).
Proof.
  split; [| split; [| split]].
  - intros o. apply interestWith_bounds.
  - apply stress_bounds.
  - vm_compute. repeat split; reflexivity.
  - vm_compute. repeat split; reflexivity.
Qed.

(** C8, as amended. For likes=200, comments=20, shares=10, saves=20 and
    watchTime=300 the engine's normalisation saturates every component at
    1 and its interest score is exactly 100 under either weight table of
    analysisEngine.js; the routes file's variant normalises shares to 1/2
    and scores 90. *)
Theorem saturating_record_scores :
  let n := Scoring.normalize (A := Q) Samples.saturating in
  (Scoring.normalizedLikes n == 1 /\ Scoring.normalizedComments n == 1 /\
   Scoring.normalizedShares n == 1 /\ Scoring.normalizedSaves n == 1 /\
   Scoring.normalizedWatchTime n == 1) /\
  Scoring.calculateInterestScore (A := Q) Samples.saturating == 100 /\
  Scoring.interestWith Scoring.SCORE_WEIGHTS_METRICS Samples.saturating == 100 /\
  Scoring.normalizedShares (AnalysisRoutes.normalize Samples.saturating) == 1 # 2 /\
  AnalysisRoutes.calculateInterestScore (A := Q) Samples.saturating == 90.
Proof. vm_compute. repeat split; reflexivity. Qed.

(** C8 fails for the routes file's scheme: the score there is not 100. *)
Lemma routes_saturating_score_not_100 :
  ~ (AnalysisRoutes.calculateInterestScore (A := Q) Samples.saturating == 100).
Proof. vm_compute. discriminate. Qed.

(** The same evaluation in binary64 arithmetic, rounding included: the
    values are those of the exact computation ([===] is [PrimFloat.eqb]). *)
Lemma saturating_record_binary64 :
  (let n := Scoring.normalize (A := float) Samples.saturating in
   (Scoring.normalizedLikes n = 1 /\ Scoring.normalizedComments n = 1 /\
    Scoring.normalizedShares n = 1 /\ Scoring.normalizedSaves n = 1 /\
    Scoring.normalizedWatchTime n = 1) /\
   Scoring.calculateInterestScore (A := float) Samples.saturating = 100 /\
   Scoring.interestWith Scoring.SCORE_WEIGHTS_METRICS Samples.saturating = 100 /\
   Scoring.normalizedShares (AnalysisRoutes.normalize Samples.saturating) = 0.5 /\
   AnalysisRoutes.calculateInterestScore (A := float) Samples.saturating = 90 /\
   PrimFloat.eqb
     (AnalysisRoutes.calculateInterestScore (A := float) Samples.saturating) 100
   = false)%float.
Proof. vm_compute. repeat split; reflexivity. Qed.

End ScoreBounds.

(** ** Properties of the risk detector *)

Section Detector.
Import JS Engine RiskSpec.
Local Open Scope list_scope.

Lemma scanText_firstTier (t : string) :
  fst (scanText t) = firstTier t.
Proof.
  unfold scanText, firstTier, hasMatch; simpl.
  destruct (match_ RISK_high (toLowerCase t)); [| reflexivity].
  destruct (match_ RISK_medium (toLowerCase t)); [| reflexivity].
  destruct (match_ RISK_low (toLowerCase t)); reflexivity.
Qed.

(** Only the matches of the first tier are kept. *)
Lemma scanText_matches (t : string) (s : severity) :
  firstTier t = Some s ->
  let ms := snd (scanText t) in
  (m_high ms ++ m_medium ms ++ m_low ms)%list
  = uniq [] (match_ (keywords s) (toLowerCase t)).
Proof.
  unfold scanText, firstTier, hasMatch; simpl.
  destruct (match_ RISK_high (toLowerCase t)) eqn:Hh.
  - destruct (match_ RISK_medium (toLowerCase t)) eqn:Hm.
    + destruct (match_ RISK_low (toLowerCase t)) eqn:Hl.
      * discriminate.
      * intros [= <-]. simpl. rewrite Hl. reflexivity.
    + intros [= <-]. simpl. rewrite Hm, app_nil_r. reflexivity.
  - intros [= <-]. simpl. rewrite Hh, app_nil_r. reflexivity.
Qed.

Lemma firstTier_empty : firstTier EmptyString = None.
Proof. reflexivity. Qed.

(** One iteration, stated with the spec of the text. *)
Lemma visit_spec (st : LoopState) (m : Post) :
  visit st m =
  match tierOfPost m with
  | Some (t, s) =>
      if decide (t ∈ processedTexts st) then st
      else {| riskPosts := riskPosts st ++ [findingOf m t s];
              processedTexts := {[ t ]} ∪ processedTexts st |}
  | None => st
  end.
Proof.
  unfold visit, tierOfPost.
  destruct (text m) as [t |]; [| reflexivity].
  destruct t as [| c r]; [reflexivity |].
  set (t := String c r).
  pose proof (scanText_firstTier t) as Hf.
  pose proof (scanText_matches t) as Hm.
  destruct (scanText t) as [o ms]. cbn [fst snd] in Hf, Hm. rewrite <- Hf.
  destruct o as [s |].
  - destruct (decide (t ∈ processedTexts st)); [reflexivity |].
    unfold findingOf. rewrite <- (Hm s) by (symmetry; exact Hf).
    reflexivity.
  - destruct (decide (t ∈ processedTexts st)); reflexivity.
Qed.

Lemma scanBatch_snoc (ms : list Post) (m : Post) :
  scanBatch (ms ++ [m]) = visit (scanBatch ms) m.
Proof. unfold scanBatch. rewrite fold_left_app. reflexivity. Qed.

Lemma elem_of_textsAt (s : severity) (ms : list Post) (t : string) :
  t ∈ textsAt s ms <-> exists m, m ∈ ms /\ tierOfPost m = Some (t, s).
Proof.
  unfold textsAt. rewrite elem_of_list_to_set, list_elem_of_omap.
  split; intros [m [Hin H]]; exists m; split; try exact Hin.
  - unfold textAt in H. destruct (tierOfPost m) as [[t' s'] |]; [| discriminate].
    destruct (decide (s' = s)); [| discriminate]. congruence.
  - unfold textAt. rewrite H. rewrite decide_True by reflexivity. reflexivity.
Qed.

Lemma tierOfPost_text (m : Post) (t : string) (s : severity) :
  tierOfPost m = Some (t, s) -> text m = Some t /\ firstTier t = Some s.
Proof.
  unfold tierOfPost. destruct (text m) as [t' |]; [| discriminate].
  destruct (firstTier t') as [s' |] eqn:E; [| discriminate].
  intros [= <- <-]. auto.
Qed.

Lemma textsAt_tier (s : severity) (ms : list Post) (t : string) :
  t ∈ textsAt s ms -> firstTier t = Some s.
Proof.
  rewrite elem_of_textsAt. intros [m [_ H]].
  apply tierOfPost_text in H. tauto.
Qed.

Lemma textsAt_snoc (s : severity) (ms : list Post) (m : Post) :
  textsAt s (ms ++ [m]) =
  textsAt s ms ∪ match textAt s m with Some t => {[ t ]} | None => ∅ end.
Proof.
  unfold textsAt. rewrite omap_app, list_to_set_app_L. f_equal.
  simpl. destruct (textAt s m); simpl; set_solver.
Qed.

Lemma textAt_of_tier (s s0 : severity) (m : Post) (t : string) :
  tierOfPost m = Some (t, s0) ->
  textAt s m = if decide (s0 = s) then Some t else None.
Proof. unfold textAt. intros ->. reflexivity. Qed.

Lemma textAt_none (s : severity) (m : Post) :
  tierOfPost m = None -> textAt s m = None.
Proof. unfold textAt. intros ->. reflexivity. Qed.

Lemma elem_of_riskyTexts (ms : list Post) (t : string) :
  t ∈ riskyTexts ms <-> exists s, t ∈ textsAt s ms.
Proof.
  unfold riskyTexts. rewrite !elem_of_union. split.
  - intros [[H | H] | H]; eauto.
  - intros [[] H]; auto.
Qed.

Lemma is_severity_findingOf (s s0 : severity) (m : Post) (t : string) :
  is_severity s (findingOf m t s0) = bool_decide (s0 = s).
Proof. destruct s, s0; reflexivity. Qed.

Lemma count_snoc (s : severity) (posts : list Finding.t) (f : Finding.t) :
  length (List.filter (is_severity s) (posts ++ [f])) =
  (length (List.filter (is_severity s) posts)
   + if is_severity s f then 1 else 0)%nat.
Proof.
  rewrite List.filter_app, length_app. simpl.
  destruct (is_severity s f); reflexivity.
Qed.

(** The loop invariant: the processed set is the set of risky texts seen
    so far, and each tier holds one finding per distinct text. *)
Lemma scanBatch_invariant (ms : list Post) :
  processedTexts (scanBatch ms) = riskyTexts ms /\
  forall s, length (List.filter (is_severity s) (riskPosts (scanBatch ms)))
            = size (textsAt s ms).
Proof.
  induction ms as [| m ms [IHp IHc]] using rev_ind.
  - split; [reflexivity | intros s; reflexivity].
  - rewrite scanBatch_snoc, visit_spec.
    destruct (tierOfPost m) as [[t s0] |] eqn:E.
    + destruct (decide (t ∈ processedTexts (scanBatch ms))) as [Hin | Hout].
      * assert (Hsame : forall s, textsAt s (ms ++ [m]) = textsAt s ms).
        { intros s. rewrite textsAt_snoc, (textAt_of_tier s s0 m t E).
          destruct (decide (s0 = s)) as [<- |]; [| set_solver].
          rewrite IHp in Hin. apply elem_of_riskyTexts in Hin as [s' Hs'].
          pose proof (textsAt_tier _ _ _ Hs') as H1.
          apply tierOfPost_text in E as [_ H2].
          assert (s' = s0) by congruence. subst s'. set_solver. }
        split.
        -- unfold riskyTexts. rewrite !Hsame. exact IHp.
        -- intros s. rewrite Hsame. apply IHc.
      * assert (Hnew : forall s, t ∉ textsAt s ms).
        { intros s Hs. apply Hout. rewrite IHp.
          apply elem_of_riskyTexts. eauto. }
        simpl. split.
        -- rewrite IHp. unfold riskyTexts. rewrite !textsAt_snoc.
           rewrite !(textAt_of_tier _ s0 m t E).
           destruct s0; simpl; set_solver.
        -- intros s. rewrite count_snoc, is_severity_findingOf, IHc.
           rewrite textsAt_snoc, (textAt_of_tier s s0 m t E).
           destruct (decide (s0 = s)) as [<- | Hne].
           ++ rewrite bool_decide_eq_true_2 by reflexivity.
              rewrite size_union by (specialize (Hnew s0); set_solver).
              rewrite size_singleton. reflexivity.
           ++ rewrite bool_decide_eq_false_2 by exact Hne.
              rewrite union_empty_r_L. lia.
    + split.
      * rewrite IHp. unfold riskyTexts. rewrite !textsAt_snoc.
        rewrite !(textAt_none _ m E). set_solver.
      * intros s. rewrite textsAt_snoc, (textAt_none _ m E).
        rewrite union_empty_r_L. apply IHc.
Qed.

Lemma textsAt_disjoint (s1 s2 : severity) (ms : list Post) :
  s1 <> s2 -> textsAt s1 ms ## textsAt s2 ms.
Proof.
  intros Hne t H1 H2.
  apply textsAt_tier in H1. apply textsAt_tier in H2. congruence.
Qed.

Lemma length_by_severity (posts : list Finding.t) :
  length posts =
  (length (List.filter (is_severity high) posts)
   + length (List.filter (is_severity medium) posts)
   + length (List.filter (is_severity low) posts))%nat.
Proof.
  induction posts as [| f posts IH]; [reflexivity |].
  destruct f as [i tx ts mt []]; simpl; lia.
Qed.

Lemma size_riskyTexts (ms : list Post) :
  size (riskyTexts ms) =
  (size (textsAt high ms) + size (textsAt medium ms) + size (textsAt low ms))%nat.
Proof.
  unfold riskyTexts.
  pose proof (textsAt_disjoint high medium ms).
  pose proof (textsAt_disjoint high low ms).
  pose proof (textsAt_disjoint medium low ms).
  rewrite !size_union; [reflexivity | | ]; set_solver.
Qed.

Lemma total_findings (ms : list Post) :
  length (riskPosts (scanBatch ms)) = size (riskyTexts ms).
Proof.
  destruct (scanBatch_invariant ms) as [_ Hc].
  rewrite length_by_severity, !Hc, size_riskyTexts. reflexivity.
Qed.

(** Every finding is the finding of a post of the batch, at the first
    tier of that post's text. *)
Lemma finding_origin (ms : list Post) (f : Finding.t) :
  f ∈ riskPosts (scanBatch ms) ->
  exists m t s, m ∈ ms /\ tierOfPost m = Some (t, s) /\ f = findingOf m t s.
Proof.
  induction ms as [| m ms IH] using rev_ind.
  - simpl. intros H. inversion H.
  - rewrite scanBatch_snoc, visit_spec. intros H.
    assert (Hold : f ∈ riskPosts (scanBatch ms) ->
                   exists m0 t s, m0 ∈ ms ++ [m] /\
                     tierOfPost m0 = Some (t, s) /\ f = findingOf m0 t s).
    { intros H0. destruct (IH H0) as (m0 & t & s & Hin & Ht & Hf).
      exists m0, t, s. rewrite elem_of_app. auto. }
    destruct (tierOfPost m) as [[t s] |] eqn:E; [| auto].
    destruct (decide (t ∈ processedTexts (scanBatch ms))); [auto |].
    simpl in H. apply elem_of_app in H as [H | H]; [auto |].
    apply list_elem_of_singleton in H. subst f.
    exists m, t, s. rewrite elem_of_app, list_elem_of_singleton. auto.
Qed.

Lemma report_counts (ms : list Post) :
  let r := detectRiskFactors ms in
  let posts := riskPosts (scanBatch ms) in
  total r = length posts /\
  highRisk r = length (List.filter (is_severity high) posts) /\
  mediumRisk r = length (List.filter (is_severity medium) posts) /\
  lowRisk r = length (List.filter (is_severity low) posts).
Proof. destruct ms; simpl; auto. Qed.

(** A later record whose text already occurred leaves the loop state as
    it was. *)
Lemma visit_duplicate (ms : list Post) (m m' : Post) :
  m' ∈ ms -> text m' = text m -> visit (scanBatch ms) m = scanBatch ms.
Proof.
  intros Hin Htext. rewrite visit_spec.
  destruct (tierOfPost m) as [[t s] |] eqn:E; [| reflexivity].
  rewrite decide_True; [reflexivity |].
  destruct (scanBatch_invariant ms) as [-> _].
  apply elem_of_riskyTexts. exists s. apply elem_of_textsAt.
  exists m'. split; [exact Hin |].
  unfold tierOfPost in *. rewrite Htext. exact E.
Qed.

Lemma detect_nonempty (ms : list Post) :
  ms <> [] -> detectRiskFactors ms = summarize (riskPosts (scanBatch ms)).
Proof. destruct ms; [congruence | reflexivity]. Qed.

Lemma hasMatch_high_firstTier (t : string) :
  hasMatch high t = true -> firstTier t = Some high.
Proof. unfold firstTier. simpl. intros ->. reflexivity. Qed.

Lemma scanBatch_single (m : Post) (t : string) (s : severity) :
  text m = Some t -> firstTier t = Some s ->
  scanBatch [m] =
  {| riskPosts := [findingOf m t s]; processedTexts := {[ t ]} ∪ ∅ |}.
Proof.
  intros Ht Hs. change (scanBatch [m]) with (visit (scanBatch []) m).
  rewrite visit_spec. unfold tierOfPost. rewrite Ht, Hs.
  rewrite decide_False by set_solver. reflexivity.
Qed.

(** C2. The tiers are tried in the order high, medium, low and the finding
    takes the first tier with a match together with that tier's matches
    only; a text with a high-tier match yields exactly one finding, of
    severity high, with no low-tier match kept, and never counts as a
    low-severity finding of any batch. *)
Theorem first_matching_tier_wins :
  (forall t : string,
      fst (scanText t) = firstTier t /\
      forall s, firstTier t = Some s ->
        let ms := snd (scanText t) in
        m_high ms ++ m_medium ms ++ m_low ms
        = uniq [] (match_ (keywords s) (toLowerCase t))) /\
  (forall (m : Post) (t : string),
      text m = Some t -> hasMatch high t = true -> hasMatch low t = true ->
      m_low (snd (scanText t)) = [] /\
      riskPosts (scanBatch [m]) = [findingOf m t high] /\
      detectRiskFactors [m] =
        {| total := 1; highRisk := 1; mediumRisk := 0; lowRisk := 0;
           riskLevel := level_high; riskScore := Some 10 |}) /\
  (forall ms : list Post,
      lowRisk (detectRiskFactors ms) = size (textsAt low ms) /\
      forall t, hasMatch high t = true -> t ∉ textsAt low ms).
Proof.
  split; [| split].
  - intros t. split; [apply scanText_firstTier | apply scanText_matches].
  - intros m t Ht Hh _.
    pose proof (hasMatch_high_firstTier t Hh) as Hf. split; [| split].
    + unfold scanText. unfold hasMatch in Hh. simpl in Hh.
      destruct (match_ RISK_high (toLowerCase t)); [discriminate | reflexivity].
    + rewrite (scanBatch_single m t high Ht Hf). reflexivity.
    + rewrite detect_nonempty by discriminate.
      rewrite (scanBatch_single m t high Ht Hf). reflexivity.
  - intros ms. split.
    + destruct (report_counts ms) as (_ & _ & _ & ->).
      apply scanBatch_invariant.
    + intros t Hh Hin. apply textsAt_tier in Hin.
      rewrite (hasMatch_high_firstTier t Hh) in Hin. discriminate.
Qed.

Lemma first_matching_tier_wins_witness :
  riskPosts (scanBatch [Samples.mixedPost])
  = [findingOf Samples.mixedPost "I feel Suicidal and so lonely" high] /\
  lowRisk (detectRiskFactors [Samples.mixedPost]) = 0%nat.
Proof.
  destruct first_matching_tier_wins as (_ & H & _).
  destruct (H Samples.mixedPost "I feel Suicidal and so lonely")
    as (_ & Hposts & Hreport);
    [reflexivity | vm_compute; reflexivity | vm_compute; reflexivity |].
  split; [exact Hposts | rewrite Hreport; reflexivity].
Defined.

(** C3. The number of findings is the number of distinct texts with a
    match: a record whose text already occurred earlier in the batch is
    skipped, leaving the loop state and the report as if it were absent,
    and two records with one and the same matching text give exactly one
    finding, that of the first. *)
Theorem duplicate_texts_scored_once :
  (forall ms : list Post,
      length (riskPosts (scanBatch ms)) = size (riskyTexts ms) /\
      total (detectRiskFactors ms) = size (riskyTexts ms)) /\
  (forall (ms1 ms2 : list Post) (m m' : Post),
      m' ∈ ms1 -> text m' = text m ->
      scanBatch (ms1 ++ m :: ms2) = scanBatch (ms1 ++ ms2) /\
      detectRiskFactors (ms1 ++ m :: ms2) = detectRiskFactors (ms1 ++ ms2)) /\
  (forall (m1 m2 : Post) (t : string) (s : severity),
      text m1 = Some t -> text m2 = Some t -> firstTier t = Some s ->
      riskPosts (scanBatch [m1; m2]) = [findingOf m1 t s]).
Proof.
  split; [| split].
  - intros ms. split; [apply total_findings |].
    destruct (report_counts ms) as (-> & _). apply total_findings.
  - intros ms1 ms2 m m' Hin Htext.
    assert (Hstate : scanBatch (ms1 ++ m :: ms2) = scanBatch (ms1 ++ ms2)).
    { unfold scanBatch. rewrite !fold_left_app. simpl.
      fold (scanBatch ms1). rewrite (visit_duplicate ms1 m m' Hin Htext).
      reflexivity. }
    split; [exact Hstate |].
    destruct ms1 as [| p ms1]; [inversion Hin |].
    rewrite !detect_nonempty by discriminate. rewrite Hstate. reflexivity.
  - intros m1 m2 t s H1 H2 Hs.
    change (scanBatch [m1; m2]) with (visit (scanBatch [m1]) m2).
    rewrite (visit_duplicate [m1] m2 m1) by (set_solver || congruence).
    rewrite (scanBatch_single m1 t s H1 Hs). reflexivity.
Qed.

Lemma duplicate_texts_scored_once_witness :
  riskPosts (scanBatch [Samples.hopelessPost; Samples.hopelessAgain])
  = [findingOf Samples.hopelessPost "I feel hopeless and want to give up" medium]
  /\ detectRiskFactors
       [Samples.happyPost; Samples.hopelessPost; Samples.happyAgain;
        Samples.hopelessAgain]
     = detectRiskFactors
         [Samples.happyPost; Samples.hopelessPost; Samples.happyAgain].
Proof.
  destruct duplicate_texts_scored_once as (_ & Hskip & Hpair). split.
  - apply Hpair; vm_compute; reflexivity.
  - apply (Hskip [Samples.happyPost; Samples.hopelessPost; Samples.happyAgain]
             [] Samples.hopelessAgain Samples.hopelessPost).
    + apply list_elem_of_In. simpl. tauto.
    + reflexivity.
Defined.

Lemma summarize_score (posts : list Finding.t) :
  let r := summarize posts in
  riskScore r = Some (scoreFormula (highRisk r) (mediumRisk r) (lowRisk r)).
Proof.
  unfold summarize, scoreFormula.
  cbn [riskScore highRisk mediumRisk lowRisk fold_left]. f_equal.
  rewrite Nat.min_comm. f_equal. lia.
Qed.

Lemma validated_nonempty (metrics : input) (records : list Post) :
  validateMetrics metrics = inr records -> records <> [].
Proof.
  destruct metrics as [| [| x l]]; try discriminate.
  unfold validateMetrics. destruct x as [| | p]; try discriminate.
  cbn [validateEach]. destruct (validateEach 1 l); [discriminate |].
  intros [= <-]. discriminate.
Qed.

(** C4. The risk score is min(100, 10*high + 3*medium + 1*low) over the
    numbers of findings of each tier, hence at most 100: so the grouping
    after the loop computes it for any list of findings, and so reads the
    report of every batch that validation lets through to the detector. *)
Theorem riskScore_formula :
  (forall posts : list Finding.t,
      let r := summarize posts in
      highRisk r = length (List.filter (is_severity high) posts) /\
      mediumRisk r = length (List.filter (is_severity medium) posts) /\
      lowRisk r = length (List.filter (is_severity low) posts) /\
      riskScore r = Some (scoreFormula (highRisk r) (mediumRisk r) (lowRisk r)) /\
      (scoreFormula (highRisk r) (mediumRisk r) (lowRisk r) <= 100)%nat) /\
  (forall (metrics : input) (records : list Post),
      validateMetrics metrics = inr records ->
      let r := detectRiskFactors records in
      let posts := riskPosts (scanBatch records) in
      highRisk r = length (List.filter (is_severity high) posts) /\
      mediumRisk r = length (List.filter (is_severity medium) posts) /\
      lowRisk r = length (List.filter (is_severity low) posts) /\
      riskScore r = Some (scoreFormula (highRisk r) (mediumRisk r) (lowRisk r)) /\
      (scoreFormula (highRisk r) (mediumRisk r) (lowRisk r) <= 100)%nat).
Proof.
  split.
  - intros posts r. subst r. repeat split; try reflexivity.
    + apply summarize_score.
    + unfold scoreFormula. apply Nat.le_min_l.
  - intros metrics records Hv r posts.
    pose proof (validated_nonempty metrics records Hv) as Hne.
    destruct (report_counts records) as (_ & Hh & Hm & Hl).
    repeat split; try assumption.
    + subst r. rewrite detect_nonempty by exact Hne. apply summarize_score.
    + unfold scoreFormula. apply Nat.le_min_l.
Qed.

Lemma riskScore_formula_witness :
  riskScore
    (detectRiskFactors
       [Samples.mixedPost; Samples.hopelessPost; Samples.happyPost])
  = Some 13%nat.
Proof.
  destruct riskScore_formula as [_ H].
  destruct (H (Array [Record_ Samples.mixedPost; Record_ Samples.hopelessPost;
                      Record_ Samples.happyPost])
              [Samples.mixedPost; Samples.hopelessPost; Samples.happyPost])
    as (_ & _ & _ & Hs & _); [reflexivity |].
  rewrite Hs. vm_compute. reflexivity.
Defined.

(** C5. For every batch the overall risk level is the one the decision
    table gives, read top-down with the first row that holds, on the
    numbers of findings of each tier. *)
Theorem riskLevel_decision_table (ms : list Post) :
  let r := detectRiskFactors ms in
  let posts := riskPosts (scanBatch ms) in
  highRisk r = length (List.filter (is_severity high) posts) /\
  mediumRisk r = length (List.filter (is_severity medium) posts) /\
  lowRisk r = length (List.filter (is_severity low) posts) /\
  riskLevel r = levelTable (highRisk r) (mediumRisk r) (lowRisk r).
Proof.
  intros r posts.
  destruct (report_counts ms) as (_ & Hh & Hm & Hl).
  repeat split; try assumption.
  subst r. destruct ms as [| m ms]; [reflexivity |].
  rewrite detect_nonempty by discriminate.
  unfold summarize. cbn [riskLevel highRisk mediumRisk lowRisk].
  generalize (length (List.filter (is_severity high) (riskPosts (scanBatch (m :: ms))))).
  generalize (length (List.filter (is_severity medium) (riskPosts (scanBatch (m :: ms))))).
  generalize (length (List.filter (is_severity low) (riskPosts (scanBatch (m :: ms))))).
  intros l md h. unfold levelTable, firstMatch, decisionTable.
  cbn [List.find fst].
  destruct (0 <? h)%nat; [reflexivity |].
  destruct (3 <=? md)%nat; [reflexivity |].
  destruct (0 <? md)%nat; [reflexivity |].
  destruct (5 <=? l)%nat; [reflexivity |].
  destruct (0 <? l)%nat; reflexivity.
Qed.

(** The rows of the table, one implication each. *)
Lemma levelTable_rows (h m l : nat) :
  (0 < h -> levelTable h m l = level_high) /\
  (h = 0 -> 3 <= m -> levelTable h m l = level_medium_high) /\
  (h = 0 -> 0 < m < 3 -> levelTable h m l = level_medium) /\
  (h = 0 -> m = 0 -> 5 <= l -> levelTable h m l = level_low_medium) /\
  (h = 0 -> m = 0 -> 0 < l < 5 -> levelTable h m l = level_low) /\
  (h = 0 -> m = 0 -> l = 0 -> levelTable h m l = level_none).
Proof.
  unfold levelTable, firstMatch, decisionTable. cbn [List.find fst].
  repeat split; intros;
    repeat match goal with
      | |- context [(?a <? ?b)%nat] => destruct (Nat.ltb_spec a b)
      | |- context [(?a <=? ?b)%nat] => destruct (Nat.leb_spec a b)
      end; try reflexivity; lia.
Qed.

Lemma length_append (a b : string) :
  String.length (a ++ b)%string = String.length a + String.length b.
Proof. induction a as [| c a IH]; simpl; [reflexivity | rewrite IH; reflexivity]. Qed.

Lemma length_substring0 (n : nat) (t : string) :
  String.length (substring0 n t) = Nat.min n (String.length t).
Proof.
  revert t. induction n as [| n IH]; intros [| c t]; simpl; try reflexivity.
  rewrite IH. reflexivity.
Qed.

Lemma excerpt_spec (t : string) :
  (String.length (excerpt t) <= 203) /\
  (200 < String.length t ->
   excerpt t = (substring0 200 t ++ "...")%string /\
   String.length (excerpt t) = 203) /\
  (String.length t <= 200 -> excerpt t = t).
Proof.
  unfold excerpt. destruct (Nat.ltb_spec 200 (String.length t)) as [Hlt | Hle].
  - assert (Hlen : String.length (substring0 200 t ++ "...")%string = 203).
    { rewrite length_append, length_substring0.
      rewrite Nat.min_l by lia. reflexivity. }
    repeat split; try lia; intros; lia.
  - repeat split; try lia; intros; lia.
Qed.

(** C9, as amended. The excerpt of every finding is the text of a record
    of the batch, left unchanged when it has at most 200 characters and
    otherwise cut to its first 200 characters followed by three dots, 203
    characters in all; so an excerpt has at most 203 characters. *)
Theorem excerpt_truncation (ms : list Post) (f : Finding.t) :
  f ∈ riskPosts (scanBatch ms) ->
  exists (m : Post) (t : string),
    m ∈ ms /\ text m = Some t /\
    String.length (Finding.text f) <= 203 /\
    (200 < String.length t ->
     Finding.text f = (substring0 200 t ++ "...")%string /\
     String.length (Finding.text f) = 203) /\
    (String.length t <= 200 -> Finding.text f = t).
Proof.
  intros Hf. destruct (finding_origin ms f Hf) as (m & t & s & Hin & Ht & ->).
  apply tierOfPost_text in Ht as [Ht _].
  exists m, t. split; [exact Hin |]. split; [exact Ht |].
  apply excerpt_spec.
Qed.

Lemma excerpt_truncation_witness :
  exists (m : Post) (t : string),
    m ∈ [Samples.longPost] /\ text m = Some t /\
    String.length (Finding.text (findingOf Samples.longPost Samples.longText medium)) <= 203 /\
    (200 < String.length t ->
     Finding.text (findingOf Samples.longPost Samples.longText medium)
     = (substring0 200 t ++ "...")%string /\
     String.length (Finding.text (findingOf Samples.longPost Samples.longText medium)) = 203) /\
    (String.length t <= 200 ->
     Finding.text (findingOf Samples.longPost Samples.longText medium) = t).
Proof.
  apply (excerpt_truncation [Samples.longPost]).
  vm_compute. left.
Defined.

(** C9 fails on a text of more than 200 characters: the excerpt of its
    finding has 203 characters. *)
Lemma long_text_excerpt_exceeds_200 :
  exists f : Finding.t,
    f ∈ riskPosts (scanBatch [Samples.longPost]) /\
    ~ (String.length (Finding.text f) <= 200).
Proof.
  exists (findingOf Samples.longPost Samples.longText medium). split.
  - vm_compute. left.
  - vm_compute. lia.
Qed.

End Detector.

(** ** Properties of validation and of the result cache *)

Section CacheProperties.
Import JS Engine CacheSpec.
Local Open Scope list_scope.

Variable dateToString : Z -> string.
Variable toISOString : Z -> string.

Lemma validateEach_invalid (l : list element) (index : nat) :
  NotAnObject ∈ l \/ MissingMetrics ∈ l ->
  exists e, validateEach index l = inl e.
Proof.
  revert index. induction l as [| x l IH]; intros index H.
  - destruct H as [H | H]; inversion H.
  - destruct x as [| | p]; simpl; eauto.
    destruct (IH (S index)) as [e ->]; [| eauto].
    destruct H as [H | H]; apply elem_of_cons in H as [H | H];
      try discriminate; auto.
Qed.

Lemma validateEach_records (ms : list Post) (index : nat) :
  validateEach index (Record_ <$> ms) = inr ms.
Proof.
  revert index. induction ms as [| m ms IH]; intros index; simpl;
    [reflexivity | rewrite IH; reflexivity].
Qed.

Lemma validateMetrics_records (ms : list Post) :
  ms <> [] -> validateMetrics (Array (Record_ <$> ms)) = inr ms.
Proof.
  destruct ms as [| m ms]; [congruence |]. intros _.
  apply (validateEach_records (m :: ms) 0).
Qed.

Local Abbreviation analyze := (analyzeMetrics dateToString toISOString).
Local Abbreviation keyOf := (generateCacheKey dateToString toISOString).

Lemma analyze_hit (clock : Clock) (cache : gmap string CacheEntry)
    (metrics : input) (options : Options)
    (records : list Post) (entry : CacheEntry) :
  validateMetrics metrics = inr records ->
  cache !! keyOf records options = Some entry ->
  analyze clock cache metrics options = (inr (hit clock (data entry)), cache).
Proof. unfold analyzeMetrics. intros -> ->. reflexivity. Qed.

Lemma cleanupCache_keeps (now : Z) (cache : gmap string CacheEntry)
    (key : string) (entry : CacheEntry) :
  cache !! key = Some entry -> unexpired key cache now = true ->
  cleanupCache now cache !! key = Some entry.
Proof.
  unfold unexpired, cleanupCache. intros H. rewrite H. intros Hfresh.
  apply map_lookup_filter_Some. split; [exact H |]. simpl. lia.
Qed.

Lemma cleanupCache_drops (now : Z) (cache : gmap string CacheEntry)
    (key : string) (entry : CacheEntry) :
  cache !! key = Some entry -> (now - stored entry > CACHE_TTL)%Z ->
  cleanupCache now cache !! key = None.
Proof.
  unfold cleanupCache. intros H Hold.
  apply map_lookup_filter_None. right. intros e He. simpl.
  assert (e = entry) by congruence. subst e. lia.
Qed.

Lemma sweep_keeps (times : list Z) (cache : gmap string CacheEntry)
    (key : string) (entry : CacheEntry) :
  cache !! key = Some entry ->
  Forall (fun now => (now - stored entry <= CACHE_TTL)%Z) times ->
  sweep times cache !! key = Some entry.
Proof.
  revert cache. induction times as [| now times IH]; intros cache H Hall.
  - exact H.
  - inversion Hall as [| ? ? Hnow Hrest]; subst. simpl. apply IH; [| exact Hrest].
    apply cleanupCache_keeps; [exact H |].
    unfold unexpired. rewrite H. lia.
Qed.

Lemma unexpired_entry (times : list Z) (cache : gmap string CacheEntry)
    (key : string) (entry : CacheEntry) :
  cache !! key = Some entry ->
  Forall (fun now => unexpired key cache now = true) times ->
  Forall (fun now => (now - stored entry <= CACHE_TTL)%Z) times.
Proof.
  intros H Hall. induction Hall as [| now times Hnow _ IH]; constructor;
    [| exact IH].
  unfold unexpired in Hnow. rewrite H in Hnow. lia.
Qed.

(** A batch with the key of a stored entry is answered with that entry,
    as long as no sweep found it expired: what the cache is written to do
    once an entry is stored. *)
Lemma answered_from_cache (clock : Clock) (cache : gmap string CacheEntry)
    (metrics1 metrics2 : input) (options : Options)
    (records1 records2 : list Post) (entry : CacheEntry) (times : list Z) :
  validateMetrics metrics1 = inr records1 ->
  validateMetrics metrics2 = inr records2 ->
  keyOf records1 options = keyOf records2 options ->
  cache !! keyOf records1 options = Some entry ->
  Forall (fun now => unexpired (keyOf records1 options) cache now = true) times ->
  analyze clock (sweep times cache) metrics2 options
  = (inr (hit clock (data entry)), sweep times cache).
Proof.
  intros Hv1 Hv2 Hkey He Hfresh.
  apply (analyze_hit clock _ metrics2 options records2 entry Hv2).
  rewrite <- Hkey. apply sweep_keeps; [exact He |].
  apply (unexpired_entry times cache _ entry He Hfresh).
Qed.

(** The two score functions are unbound in the metrics module, so the
    computation raises before it has a result, whatever the batch. *)
Lemma processMetrics_raises (ms : list Post) (options : Options) :
  processMetrics ms options = inl (NotDefined "calculateInterestScore").
Proof. reflexivity. Qed.

(** A call that gets past validation and finds no entry fails in the
    computation and leaves the cache as it was. *)
Lemma analyze_computation_fails (clock : Clock) (cache : gmap string CacheEntry)
    (metrics : input) (options : Options) (records : list Post) :
  validateMetrics metrics = inr records ->
  cache !! keyOf records options = None ->
  analyze clock cache metrics options
  = (inl (AnalysisFailed (NotDefined "calculateInterestScore")), cache).
Proof.
  unfold analyzeMetrics. intros -> ->. rewrite processMetrics_raises.
  reflexivity.
Qed.

(** No call stores an entry. *)
Lemma analyze_never_stores (clock : Clock) (cache : gmap string CacheEntry)
    (metrics : input) (options : Options) :
  snd (analyze clock cache metrics options) = cache.
Proof.
  unfold analyzeMetrics.
  destruct (validateMetrics metrics) as [e | records]; [reflexivity |].
  destruct (cache !! keyOf records options); [reflexivity |].
  rewrite processMetrics_raises. reflexivity.
Qed.

Lemma sweep_empty (times : list Z) : sweep times ∅ = ∅.
Proof.
  induction times as [| now times IH]; [reflexivity |].
  unfold sweep in *. cbn [fold_left].
  replace (cleanupCache now ∅) with (∅ : gmap string CacheEntry);
    [exact IH |].
  symmetry. apply map_filter_empty.
Qed.

(** So the cache stays empty for the life of the process. *)
Lemma reachable_empty (cache : gmap string CacheEntry) :
  reachable dateToString toISOString cache -> cache = ∅.
Proof.
  induction 1 as [| clock cache metrics options outcome cache' _ IH Hcall
                  | now cache _ IH].
  - reflexivity.
  - pose proof (analyze_never_stores clock cache metrics options) as Hs.
    rewrite Hcall in Hs. cbn [snd] in Hs. congruence.
  - subst cache. apply (sweep_empty [now]).
Qed.

(** Every call with a valid batch fails, before and after any sweeps. *)
Lemma analyze_valid_fails (clock : Clock) (cache : gmap string CacheEntry)
    (ms : list Post) (options : Options) (times : list Z) :
  reachable dateToString toISOString cache -> ms <> [] ->
  cache = ∅ /\
  analyze clock (sweep times cache) (Array (Record_ <$> ms)) options
  = (inl (AnalysisFailed (NotDefined "calculateInterestScore")), ∅).
Proof.
  intros Hreach Hne. pose proof (reachable_empty cache Hreach) as ->.
  split; [reflexivity |]. rewrite sweep_empty.
  apply (analyze_computation_fails clock ∅ _ options ms
           (validateMetrics_records ms Hne)).
  apply lookup_empty.
Qed.

Lemma key_reads_identity (ms1 ms2 : list Post) (options : Options) :
  identity <$> ms1 = identity <$> ms2 ->
  keyOf ms1 options = keyOf ms2 options.
Proof.
  intros H. unfold generateCacheKey. do 2 f_equal.
  revert ms2 H. induction ms1 as [| m1 ms1 IH]; intros [| m2 ms2] H;
    try discriminate; [reflexivity |].
  rewrite !fmap_cons in H. unfold identity at 1 3 in H.
  injection H as Hi Ht Hrest. cbn [map]. rewrite Hi, Ht, (IH ms2 Hrest).
  reflexivity.
Qed.

(** C6. A call whose argument is not an array, is empty or holds an entry
    that is not an object or lacks its metrics object throws: the outcome
    is the wrapped validation error, there is no result, and the cache is
    left as it was. *)
Theorem invalid_input_fails_fast (clock : Clock)
    (cache : gmap string CacheEntry) (metrics : input) (options : Options) :
  metrics = NotAnArray \/ metrics = Array [] \/
  (exists l, metrics = Array l /\ (NotAnObject ∈ l \/ MissingMetrics ∈ l)) ->
  exists e, validateMetrics metrics = inl e /\
            analyze clock cache metrics options = (inl (AnalysisFailed e), cache).
Proof.
  intros H.
  assert (Hv : exists e, validateMetrics metrics = inl e).
  { destruct H as [-> | [-> | (l & -> & H)]]; simpl; eauto.
    destruct l as [| x l]; [eauto |].
    apply (validateEach_invalid (x :: l) 0 H). }
  destruct Hv as [e He]. exists e. split; [exact He |].
  unfold analyzeMetrics. rewrite He. reflexivity.
Qed.

(** C7. A call with a valid batch never returns a result: the first call
    fails with the ReferenceError of the unbound [calculateInterestScore]
    and stores nothing, and the second call with the same batch and options
    fails in the same way instead of being a cache hit. *)
Theorem repeated_call_fails_again (clock1 clock2 : Clock)
    (cache : gmap string CacheEntry) (ms : list Post)
    (options : Options) (times : list Z) :
  reachable dateToString toISOString cache -> ms <> [] ->
  let failure := inl (AnalysisFailed (NotDefined "calculateInterestScore")) in
  exists cache1,
    analyze clock1 cache (Array (Record_ <$> ms)) options = (failure, cache1) /\
    cache1 !! keyOf ms options = None /\
    analyze clock2 (sweep times cache1) (Array (Record_ <$> ms)) options
    = (failure, sweep times cache1).
Proof.
  intros Hreach Hne failure. subst failure. exists ∅.
  destruct (analyze_valid_fails clock1 cache ms options [] Hreach Hne)
    as [-> H1].
  destruct (analyze_valid_fails clock2 ∅ ms options times
              (reachable_start _ _) Hne) as [_ H2].
  split; [exact H1 |]. split; [apply lookup_empty |].
  rewrite H2, sweep_empty. reflexivity.
Qed.

(** C10. The cache key reads only the identifier and the timestamp of each
    record, and the options: two batches that agree on these pairwise have
    the same key.  No result is served under it: the call with the first
    batch fails with the ReferenceError and stores nothing, so the call
    with the second batch fails too. *)
Theorem cache_key_ignores_content (ms1 ms2 : list Post) (options : Options) :
  identity <$> ms1 = identity <$> ms2 ->
  keyOf ms1 options = keyOf ms2 options /\
  forall (clock1 clock2 : Clock) (cache : gmap string CacheEntry)
         (times : list Z),
    reachable dateToString toISOString cache -> ms1 <> [] ->
    let failure := inl (AnalysisFailed (NotDefined "calculateInterestScore")) in
    exists cache1,
      analyze clock1 cache (Array (Record_ <$> ms1)) options
      = (failure, cache1) /\
      cache1 !! keyOf ms1 options = None /\
      analyze clock2 (sweep times cache1) (Array (Record_ <$> ms2)) options
      = (failure, sweep times cache1).
Proof.
  intros Hid. split; [apply (key_reads_identity ms1 ms2 options Hid) |].
  intros clock1 clock2 cache times Hreach Hne1 failure. subst failure.
  assert (Hne2 : ms2 <> []).
  { intros ->. destruct ms1; [congruence | discriminate Hid]. }
  exists ∅.
  destruct (analyze_valid_fails clock1 cache ms1 options [] Hreach Hne1)
    as [-> H1].
  destruct (analyze_valid_fails clock2 ∅ ms2 options times
              (reachable_start _ _) Hne2) as [_ H2].
  split; [exact H1 |]. split; [apply lookup_empty |].
  rewrite H2, sweep_empty. reflexivity.
Qed.

End CacheProperties.

Section CacheWitnesses.
Import JS Engine CacheSpec Samples.
Local Open Scope list_scope.

Lemma invalid_input_fails_fast_witness :
  exists e,
    validateMetrics (Array [Record_ happyPost; MissingMetrics]) = inl e /\
    analyzeMetrics printDate printDate clock0 ∅
      (Array [Record_ happyPost; MissingMetrics]) week
    = (inl (AnalysisFailed e), ∅).
Proof.
  apply (invalid_input_fails_fast printDate printDate).
  right; right. eexists. split; [reflexivity |].
  right. apply list_elem_of_In. simpl. tauto.
Defined.

Lemma repeated_call_fails_again_witness :
  exists cache1,
    analyzeMetrics printDate printDate clock0 ∅ (Array [Record_ happyPost]) week
    = (inl (AnalysisFailed (NotDefined "calculateInterestScore")), cache1) /\
    cache1 !! generateCacheKey printDate printDate [happyPost] week = None /\
    analyzeMetrics printDate printDate clock1 (sweep [301000%Z] cache1)
      (Array [Record_ happyPost]) week
    = (inl (AnalysisFailed (NotDefined "calculateInterestScore")),
       sweep [301000%Z] cache1).
Proof.
  apply (repeated_call_fails_again printDate printDate clock0 clock1 ∅
           [happyPost] week [301000%Z]).
  - apply reachable_start.
  - discriminate.
Defined.

Lemma cache_key_ignores_content_witness :
  generateCacheKey printDate printDate [happyPost] week
  = generateCacheKey printDate printDate [impostor] week /\
  exists cache1,
    analyzeMetrics printDate printDate clock0 ∅ (Array [Record_ happyPost]) week
    = (inl (AnalysisFailed (NotDefined "calculateInterestScore")), cache1) /\
    cache1 !! generateCacheKey printDate printDate [happyPost] week = None /\
    analyzeMetrics printDate printDate clock1 (sweep [301000%Z] cache1)
      (Array [Record_ impostor]) week
    = (inl (AnalysisFailed (NotDefined "calculateInterestScore")),
       sweep [301000%Z] cache1).
Proof.
  destruct (cache_key_ignores_content printDate printDate
              [happyPost] [impostor] week) as [Hkey Hcall]; [reflexivity |].
  split; [exact Hkey |].
  apply (Hcall clock0 clock1 ∅ [301000%Z]).
  - apply reachable_start.
  - discriminate.
Defined.

End CacheWitnesses.
